(** * AI Research Assistant: the Streamlit script [main.py] as a function

    [main.py] is a Streamlit script.  Streamlit executes it from top to
    bottom once per user interaction; a run reads the process environment
    and the widgets' current values, may call the completion endpoint
    through [Runner.run], and writes to the page.  The script keeps nothing
    between two runs (it uses neither [st.session_state] nor a cache).

    One run is embedded as [main w ui]: [w] gathers the collaborators the
    script calls (environment, PDF reader, completion runner) and [ui] the
    widget values of that run.  The result is the run's trace of page and
    network effects together with the way the run ended. *)

From Stdlib Require Import NArith Ascii String List Lia.
From stdpp Require Import base option list gmap.

Local Open Scope N_scope.
Local Open Scope nat_scope.
Local Open Scope list_scope.

(** ** Python strings *)

(** A Python [str] is a sequence of Unicode code points; slicing and [len]
    count code points. *)
Abbreviation str := (list N).

(** An ASCII literal of the source. *)
Definition lit (s : string) : str := map N_of_ascii (list_ascii_of_string s).

Definition LF : N := 10%N.

(** [str.isspace] on one character, as CPython's [Py_UNICODE_ISSPACE]. *)
Definition isspace (c : N) : bool :=
  ((9 <=? c) && (c <=? 13) || (28 <=? c) && (c <=? 32)
   || (c =? 133) || (c =? 160) || (c =? 5760)
   || (8192 <=? c) && (c <=? 8202)
   || (c =? 8232) || (c =? 8233) || (c =? 8239) || (c =? 8287)
   || (c =? 12288))%N.

Fixpoint lstrip (s : str) : str :=
  match s with
  | c :: s' => if isspace c then lstrip s' else s
  | [] => []
  end.

(** [s.strip()] *)
Definition strip (s : str) : str := rev (lstrip (rev (lstrip s))).

(** Truth value of a [str]: the empty string is false. *)
Definition truthy (s : str) : bool :=
  match s with [] => false | _ :: _ => true end.

(** ** Objects of the [agents] SDK, PyPDF2 and Streamlit *)

Record Agent := { Agent_name : str; Agent_instructions : str }.

Record AsyncOpenAI := { api_key : option str; base_url : str }.

Record OpenAIChatCompletionsModel :=
  { Model_model : str; openai_client : AsyncOpenAI }.

Record RunConfig :=
  { RunConfig_model : OpenAIChatCompletionsModel;
    model_provider : AsyncOpenAI;
    tracing_disabled : bool }.

Record RunResult := { final_output : str }.

(** A page of a parsed PDF, with the text [extract_text()] gives for it. *)
Record Page := { extract_text : str }.

(** The object [st.file_uploader] returns for an uploaded file. *)
Record UploadedFile := { getvalue : list N }.

(** A raised Python exception: its class and its message. *)
Record Exception := { exc_type : str; exc_msg : str }.

Definition KeyError (key : str) : Exception :=
  {| exc_type := lit "KeyError"; exc_msg := key |}.

(** The collaborators of the script. *)
Record World := {
  (** [os.environ], after [load_dotenv()] *)
  environ : gmap (list N) (list N);
  (** [PyPDF2.PdfReader(pdf).pages], or the exception the parser raises *)
  PdfReader : UploadedFile -> Exception + list Page;
  (** [asyncio.run(Runner.run(agent, input=..., run_config=...))]: the
      completed run, or the exception the call raises *)
  Runner_run : Agent -> str -> RunConfig -> Exception + RunResult
}.

(** ** Widget state of one run *)

(** The entries of the "Response Style" radio, in the order of the source. *)
Inductive ResponseStyle := Simple | ExplainLikeImFive | Technical.

(** The entries of the "Choose a tool" select box, in the order of the
    source. *)
Inductive ToolSelection :=
  | ToolNone
  | PdfSummarization
  | KeywordExtraction
  | ApaReferenceGeneration
  | ConceptExplanation.

(** The five buttons of the page. *)
Inductive Button :=
  | GetAnswer
  | SummarizePdf
  | ExtractKeywords
  | GenerateApaReference
  | ExplainConcept.

Inductive WidgetKind :=
  | Radio | TextInput | TextArea | Selectbox | FileUploader | ButtonWidget.

#[global] Instance ResponseStyle_eq_dec : EqDecision ResponseStyle.
Proof. solve_decision. Defined.
#[global] Instance ToolSelection_eq_dec : EqDecision ToolSelection.
Proof. solve_decision. Defined.
#[global] Instance Button_eq_dec : EqDecision Button.
Proof. solve_decision. Defined.

(** What the widgets hold when the script runs.  A button reads [True] only
    in the run that its click triggered, and a click triggers one run: at
    most one button is pressed in a run. *)
Record UI := {
  mode_choice : ResponseStyle;
  question : str;
  tool_choice : ToolSelection;
  pdf : option UploadedFile;
  content : str;
  reference_text : str;
  concept : str;
  clicked : option Button
}.

(** ** Effects of a run *)

Inductive Event :=
  | Widget (kind : WidgetKind) (label : str)
  | StError (msg : str)
  | StSuccess (msg : str)
  | StMarkdown (body : str)
  | StWrite (body : str)
  | RunnerRun (agent : Agent) (input : str) (run_config : RunConfig).

(** How a piece of the script ends: it falls through with a value, it calls
    [st.stop()], or an exception leaves it. *)
Inductive Outcome (A : Type) :=
  | Returned (a : A)
  | Stopped
  | Raised (e : Exception).
Arguments Returned {A} a.
Arguments Stopped {A}.
Arguments Raised {A} e.

Record Script (A : Type) := { trace : list Event; outcome : Outcome A }.
Arguments trace {A} _.
Arguments outcome {A} _.

#[global] Instance Script_ret : MRet Script :=
  fun A a => {| trace := []; outcome := Returned a |}.

#[global] Instance Script_bind : MBind Script :=
  fun A B f m =>
    match outcome m with
    | Returned a =>
        {| trace := trace m ++ trace (f a); outcome := outcome (f a) |}
    | Stopped => {| trace := trace m; outcome := Stopped |}
    | Raised e => {| trace := trace m; outcome := Raised e |}
    end.

Definition emit (ev : Event) : Script unit :=
  {| trace := [ev]; outcome := Returned tt |}.

Definition st_stop {A} : Script A := {| trace := []; outcome := Stopped |}.

Definition raise {A} (e : Exception) : Script A :=
  {| trace := []; outcome := Raised e |}.

(** A call that either returns or raises, with no effect on the page. *)
Definition call {A} (r : Exception + A) : Script A :=
  match r with inl e => raise e | inr a => mret a end.

(** [asyncio.run(Runner.run(agent, input=input, run_config=config))] *)
Definition run_agent (w : World) (agent : Agent) (input : str)
    (config : RunConfig) : Script RunResult :=
  emit (RunnerRun agent input config) ;; call (Runner_run w agent input config).

(** ** Literals of the script *)

(** A literal that starts with one non-ASCII character. *)
Definition emoji (c : N) (rest : string) : str := c :: lit rest.

Definition mode_options : list str :=
  [ emoji 0x1F4DD " Simple";
    emoji 0x1F9D2 " Explain Like I'm 5";
    emoji 0x1F4BB " Technical" ].

Definition tool_options : list str :=
  [ lit "None";
    emoji 0x1F4C4 " PDF Summarization";
    emoji 0x1F9E0 " Keyword Extraction";
    emoji 0x1F4DD " APA Reference Generator";
    emoji 0x1F4A1 " Concept Explainer" ].

(** [instructions = {...}]: the dict from radio entry to instruction. *)
Definition instructions : gmap (list N) (list N) :=
  {[ emoji 0x1F4DD " Simple" :=
       lit "Give a short, clear, and factual response for any academic or research question.";
     emoji 0x1F9D2 " Explain Like I'm 5" :=
       lit "Explain the answer in very simple, easy-to-understand terms, like to a 5-year-old.";
     emoji 0x1F4BB " Technical" :=
       lit "Provide a detailed and technical explanation with examples, references, or formulas if needed." ]}.

Definition button_label (b : Button) : str :=
  match b with
  | GetAnswer => emoji 0x1F680 " Get Answer"
  | SummarizePdf => emoji 0x1F4D8 " Summarize PDF"
  | ExtractKeywords => emoji 0x1F511 " Extract Keywords"
  | GenerateApaReference => emoji 0x1F4C4 " Generate APA Reference"
  | ExplainConcept => emoji 0x1F9E0 " Explain Concept"
  end.

(** The f-strings that build the tools' prompts. *)
Definition prompt_pdf (text : str) : str :=
  lit "Summarize the following research paper:" ++ [LF; LF] ++ text.

Definition prompt_keywords (content : str) : str :=
  lit "Extract the most relevant keywords from this content:" ++ [LF; LF] ++ content.

Definition prompt_apa (reference_text : str) : str :=
  lit "Generate APA references from the following text:" ++ [LF; LF] ++ reference_text.

Definition prompt_concept (concept : str) : str :=
  lit "Explain the following concept in simple academic terms:" ++ [LF; LF] ++ concept.

(** The bound of the slice [[:8000]]. *)
Definition slice_bound : nat := N.to_nat 8000.

(** ** Widgets *)

Definition style_index (s : ResponseStyle) : nat :=
  match s with Simple => 0 | ExplainLikeImFive => 1 | Technical => 2 end.

Definition tool_index (t : ToolSelection) : nat :=
  match t with
  | ToolNone => 0
  | PdfSummarization => 1
  | KeywordExtraction => 2
  | ApaReferenceGeneration => 3
  | ConceptExplanation => 4
  end.

(** A choice widget returns the selected entry of its options. *)
Definition selected (options : list str) (i : nat) : str :=
  default [] (options !! i).

Definition st_radio (ui : UI) (label : str) (options : list str) : Script str :=
  emit (Widget Radio label) ;; mret (selected options (style_index (mode_choice ui))).

Definition st_selectbox (ui : UI) (label : str) (options : list str) : Script str :=
  emit (Widget Selectbox label) ;; mret (selected options (tool_index (tool_choice ui))).

Definition st_text_input (label : str) (value : str) : Script str :=
  emit (Widget TextInput label) ;; mret value.

Definition st_text_area (label : str) (value : str) : Script str :=
  emit (Widget TextArea label) ;; mret value.

Definition st_file_uploader (ui : UI) (label : str) : Script (option UploadedFile) :=
  emit (Widget FileUploader label) ;; mret (pdf ui).

Definition st_button (ui : UI) (b : Button) : Script bool :=
  emit (Widget ButtonWidget (button_label b)) ;;
  mret (bool_decide (clicked ui = Some b)).

(** ** The script *)

(** [instructions[mode]]: a missing key raises [KeyError]. *)
Definition getitem (d : gmap (list N) (list N)) (key : str) : Script str :=
  match d !! key with
  | Some v => mret v
  | None => raise (KeyError key)
  end.

(** ["".join([page.extract_text() for page in reader.pages
              if page.extract_text()])[:8000]] *)
Definition joined_text (pages : list Page) : str :=
  concat (map extract_text (filter (fun p => extract_text p <> []) pages)).

Definition pdf_text (pages : list Page) : str :=
  take slice_bound (joined_text pages).

(** Lines 57-67: the research question. *)
Definition question_section (w : World) (ui : UI) (agent : Agent)
    (config : RunConfig) : Script unit :=
  question ← st_text_input (emoji 0x1F4AC " What do you want to learn about?")
               (question ui);
  pressed ← st_button ui GetAnswer;
  if pressed && truthy (strip question) then
    response ← run_agent w agent question config;
    emit (StSuccess (emoji 0x2705 " Response Ready")) ;;
    emit (StMarkdown (lit "### " ++ emoji 0x1F4C4 " Result")) ;;
    emit (StWrite (final_output response))
  else mret tt.

(** Lines 79-88. *)
Definition pdf_branch (w : World) (ui : UI) (agent : Agent)
    (config : RunConfig) : Script unit :=
  pdf ← st_file_uploader ui (lit "Upload a PDF");
  match pdf with
  | None => mret tt
  | Some file =>
      pressed ← st_button ui SummarizePdf;
      if pressed : bool then
        pages ← call (PdfReader w file);
        let text := pdf_text pages in
        let prompt := prompt_pdf text in
        response ← run_agent w agent prompt config;
        emit (StSuccess (emoji 0x2705 " Summary:")) ;;
        emit (StWrite (final_output response))
      else mret tt
  end.

(** Lines 90-97. *)
Definition keyword_branch (w : World) (ui : UI) (agent : Agent)
    (config : RunConfig) : Script unit :=
  content ← st_text_area (lit "Paste content for keyword extraction") (content ui);
  pressed ← st_button ui ExtractKeywords;
  if pressed && truthy content then
    let prompt := prompt_keywords content in
    response ← run_agent w agent prompt config;
    emit (StSuccess (emoji 0x2705 " Keywords:")) ;;
    emit (StWrite (final_output response))
  else mret tt.

(** Lines 99-106. *)
Definition apa_branch (w : World) (ui : UI) (agent : Agent)
    (config : RunConfig) : Script unit :=
  reference_text ← st_text_area (lit "Paste a paragraph or citation text")
                     (reference_text ui);
  pressed ← st_button ui GenerateApaReference;
  if pressed && truthy reference_text then
    let prompt := prompt_apa reference_text in
    response ← run_agent w agent prompt config;
    emit (StSuccess (emoji 0x2705 " APA References:")) ;;
    emit (StWrite (final_output response))
  else mret tt.

(** Lines 108-115. *)
Definition concept_branch (w : World) (ui : UI) (agent : Agent)
    (config : RunConfig) : Script unit :=
  concept ← st_text_input (lit "Enter concept to explain") (concept ui);
  pressed ← st_button ui ExplainConcept;
  if pressed && truthy concept then
    let prompt := prompt_concept concept in
    response ← run_agent w agent prompt config;
    emit (StSuccess (emoji 0x2705 " Explanation:")) ;;
    emit (StWrite (final_output response))
  else mret tt.

(** Lines 69-115: the extra tools, an [if]/[elif] chain on the entry the
    select box returned. *)
Definition tools_section (w : World) (ui : UI) (agent : Agent)
    (config : RunConfig) : Script unit :=
  tool ← st_selectbox ui (lit "Choose a tool") tool_options;
  if bool_decide (tool = emoji 0x1F4C4 " PDF Summarization") then
    pdf_branch w ui agent config
  else if bool_decide (tool = emoji 0x1F9E0 " Keyword Extraction") then
    keyword_branch w ui agent config
  else if bool_decide (tool = emoji 0x1F4DD " APA Reference Generator") then
    apa_branch w ui agent config
  else if bool_decide (tool = emoji 0x1F4A1 " Concept Explainer") then
    concept_branch w ui agent config
  else mret tt.


(** [os.getenv(name)] *)
Definition os_getenv (w : World) (name : str) : option str := environ w !! name.

(** [not api_key]: the variable is unset or empty. *)
Definition not_set (api_key : option str) : bool :=
  match api_key with
  | Some (_ :: _) => false
  | _ => true
  end.

(** Lines 15-30: the Gemini-compatible client, the model and the run
    configuration. *)
Definition client (api_key : option str) : AsyncOpenAI :=
  {| api_key := api_key;
     base_url := lit "https://generativelanguage.googleapis.com/v1beta/openai/" |}.

Definition model (api_key : option str) : OpenAIChatCompletionsModel :=
  {| Model_model := lit "gemini-2.0-flash"; openai_client := client api_key |}.

Definition config (api_key : option str) : RunConfig :=
  {| RunConfig_model := model api_key;
     model_provider := client api_key;
     tracing_disabled := true |}.

(** The whole script.  Page decoration has no bearing on control flow and is
    left out of the trace: the page configuration, title, headers, captions,
    dividers and spinners, and the static texts that [st.markdown] puts under
    the title (line 35), in the sidebar (line 41) and in the footer (lines
    118-127).  [StMarkdown] records the result header of line 66 only. *)
Definition main (w : World) (ui : UI) : Script unit :=
  let api_key := os_getenv w (lit "GEMINI_API_KEY") in
  (if not_set api_key then
     emit (StError (emoji 0x1F510 " Please set GEMINI_API_KEY in your .env file.")) ;;
     st_stop
   else mret tt) ;;
  mode ← st_radio ui (emoji 0x1F9E0 " Response Style") mode_options;
  instruction ← getitem instructions mode;
  let agent :=
    {| Agent_name := lit "Research Agent"; Agent_instructions := instruction |} in
  question_section w ui agent (config api_key) ;;
  tools_section w ui agent (config api_key).

(** ** Observations on a trace *)

(** The calls to the agent, in order: agent, input and run configuration. *)
Definition runner_calls (tr : list Event) : list (Agent * str * RunConfig) :=
  omap (fun ev =>
          match ev with
          | RunnerRun a p c => Some (a, p, c)
          | _ => None
          end) tr.

(** The prompts handed to the agent, in order. *)
Definition prompts (tr : list Event) : list str :=
  map (fun call => snd (fst call)) (runner_calls tr).

(** The widgets put on the page, in order. *)
Definition widgets (tr : list Event) : list (WidgetKind * str) :=
  omap (fun ev =>
          match ev with
          | Widget k l => Some (k, l)
          | _ => None
          end) tr.

(** The radio entry of a style, and the instruction the dict holds for it
    (the empty string stands for a missing key). *)
Definition mode_of (s : ResponseStyle) : str :=
  selected mode_options (style_index s).

Definition instruction_of (s : ResponseStyle) : str :=
  default [] (instructions !! mode_of s).

(** The agent the script builds when style [s] is selected. *)
Definition agent_for (s : ResponseStyle) : Agent :=
  {| Agent_name := lit "Research Agent"; Agent_instructions := instruction_of s |}.

(** The same widget state with another response style selected. *)
Definition with_mode (s : ResponseStyle) (ui : UI) : UI :=
  {| mode_choice := s; question := question ui; tool_choice := tool_choice ui;
     pdf := pdf ui; content := content ui;
     reference_text := reference_text ui; concept := concept ui;
     clicked := clicked ui |}.

(** The same collaborators with another completion endpoint. *)
Definition with_runner (r : Agent -> str -> RunConfig -> Exception + RunResult)
    (w : World) : World :=
  {| environ := environ w; PdfReader := PdfReader w; Runner_run := r |}.

(** ** Sample runs *)

Module Sample.

Definition answer : RunResult := {| final_output := lit "An answer." |}.

Definition upstream_error : Exception :=
  {| exc_type := lit "APIConnectionError"; exc_msg := lit "Connection error." |}.

(** A scanned document: two pages, neither with extractable text. *)
Definition scanned : list Page :=
  [ {| extract_text := [] |}; {| extract_text := [] |} ].

(** A document of 8001 characters over three pages, the second one
    without text. *)
Definition long_paper : list Page :=
  [ {| extract_text := repeat 97%N (N.to_nat 5000) |};
    {| extract_text := [] |};
    {| extract_text := repeat 98%N (N.to_nat 3001) |} ].

Definition short_paper : list Page :=
  [ {| extract_text := lit "Abstract. " |}; {| extract_text := lit "We show X." |} ].

Definition file (n : N) : UploadedFile := {| getvalue := [n] |}.

(** Files 0, 1 and 2 parse to the documents above; any other is rejected. *)
Definition reader (f : UploadedFile) : Exception + list Page :=
  match getvalue f with
  | [0%N] => inr scanned
  | [1%N] => inr long_paper
  | [2%N] => inr short_paper
  | _ => inl {| exc_type := lit "PdfReadError"; exc_msg := lit "EOF marker not found" |}
  end.

Definition world : World :=
  {| environ := {[ lit "GEMINI_API_KEY" := lit "secret" ]};
     PdfReader := reader;
     Runner_run := fun _ _ _ => inr answer |}.

(** The endpoint is down. *)
Definition world_down : World :=
  with_runner (fun _ _ _ => inl upstream_error) world.

(** No credential in the environment, and an empty one. *)
Definition world_no_key : World :=
  {| environ := ∅; PdfReader := reader; Runner_run := fun _ _ _ => inr answer |}.

Definition world_empty_key : World :=
  {| environ := {[ lit "GEMINI_API_KEY" := [] ]};
     PdfReader := reader;
     Runner_run := fun _ _ _ => inr answer |}.

Definition idle : UI :=
  {| mode_choice := Simple; question := []; tool_choice := ToolNone;
     pdf := None; content := []; reference_text := []; concept := [];
     clicked := None |}.

(** A research question, asked. *)
Definition ask : UI :=
  {| mode_choice := Technical;
     question := lit "What is quantum entanglement?";
     tool_choice := ToolNone;
     pdf := None; content := []; reference_text := []; concept := [];
     clicked := Some GetAnswer |}.

(** Keyword extraction pressed on a single space. *)
Definition keywords_space : UI :=
  {| mode_choice := Simple; question := []; tool_choice := KeywordExtraction;
     pdf := None; content := lit " "; reference_text := []; concept := [];
     clicked := Some ExtractKeywords |}.

(** Keyword extraction pressed on an empty text area. *)
Definition keywords_empty : UI :=
  {| mode_choice := Simple; question := []; tool_choice := KeywordExtraction;
     pdf := None; content := []; reference_text := []; concept := [];
     clicked := Some ExtractKeywords |}.

(** Summarize pressed on the uploaded file [n]. *)
Definition summarize (n : N) : UI :=
  {| mode_choice := Simple; question := []; tool_choice := PdfSummarization;
     pdf := Some (file n); content := []; reference_text := []; concept := [];
     clicked := Some SummarizePdf |}.

(** Get Answer pressed on a question made of a space, a tab and a line
    feed. *)
Definition ask_blank : UI :=
  {| mode_choice := Simple; question := [32%N; 9%N; 10%N];
     tool_choice := ToolNone;
     pdf := None; content := []; reference_text := []; concept := [];
     clicked := Some GetAnswer |}.

(** Get Answer pressed while a tool is selected and filled in; the question
    has a blank on either side. *)
Definition ask_beside_tool : UI :=
  {| mode_choice := ExplainLikeImFive;
     question := lit " Why is the sky blue? ";
     tool_choice := KeywordExtraction;
     pdf := None; content := lit "Rayleigh scattering";
     reference_text := []; concept := [];
     clicked := Some GetAnswer |}.

End Sample.

(** * Properties *)

(** ** The monad *)

Lemma bind_ret {A B} (a : A) (f : A -> Script B) : (mret a ≫= f) = f a.
Proof. unfold mbind, Script_bind; simpl. destruct (f a); reflexivity. Qed.

Lemma bind_emit {B} (ev : Event) (k : Script B) :
  (emit ev ;; k) = {| trace := ev :: trace k; outcome := outcome k |}.
Proof. reflexivity. Qed.

Lemma trace_bind {A B} (m : Script A) (f : A -> Script B) :
  trace (m ≫= f) =
  match outcome m with
  | Returned a => trace m ++ trace (f a)
  | _ => trace m
  end.
Proof. unfold mbind, Script_bind. destruct (outcome m); reflexivity. Qed.

Lemma outcome_bind {A B} (m : Script A) (f : A -> Script B) :
  outcome (m ≫= f) =
  match outcome m with
  | Returned a => outcome (f a)
  | Stopped => Stopped
  | Raised e => Raised e
  end.
Proof. unfold mbind, Script_bind. destruct (outcome m); reflexivity. Qed.

(** A call to the agent followed by the rest of the branch: the rest runs
    only when the call returns. *)
Lemma run_agent_bind {B} w a p c (k : RunResult -> Script B) :
  (run_agent w a p c ≫= k) =
  {| trace := RunnerRun a p c ::
              match Runner_run w a p c with
              | inr r => trace (k r)
              | inl _ => []
              end;
     outcome := match Runner_run w a p c with
                | inr r => outcome (k r)
                | inl e => Raised e
                end |}.
Proof.
  unfold run_agent, call. destruct (Runner_run w a p c); reflexivity.
Qed.

(** ** The select box and the radio *)

Lemma tools_section_eq w ui a c :
  tools_section w ui a c =
  (emit (Widget Selectbox (lit "Choose a tool")) ;;
   match tool_choice ui with
   | ToolNone => mret tt
   | PdfSummarization => pdf_branch w ui a c
   | KeywordExtraction => keyword_branch w ui a c
   | ApaReferenceGeneration => apa_branch w ui a c
   | ConceptExplanation => concept_branch w ui a c
   end).
Proof.
  unfold tools_section, st_selectbox.
  destruct (tool_choice ui); reflexivity.
Qed.

Lemma instructions_mode_of s : instructions !! mode_of s = Some (instruction_of s).
Proof. destruct s; vm_compute; reflexivity. Qed.

(** ** The script up to its first widget *)

(** Without a credential the run shows one error and stops. *)
Lemma main_stopped w ui :
  not_set (os_getenv w (lit "GEMINI_API_KEY")) = true ->
  main w ui =
  {| trace := [StError (emoji 0x1F510 " Please set GEMINI_API_KEY in your .env file.")];
     outcome := Stopped |}.
Proof. intros H. unfold main. rewrite H. reflexivity. Qed.

(** With a credential the dict lookup never raises, and the run goes on to
    the two sections with the agent of the selected style. *)
Lemma main_started w ui :
  not_set (os_getenv w (lit "GEMINI_API_KEY")) = false ->
  main w ui =
  (emit (Widget Radio (emoji 0x1F9E0 " Response Style")) ;;
   question_section w ui (agent_for (mode_choice ui))
     (config (os_getenv w (lit "GEMINI_API_KEY"))) ;;
   tools_section w ui (agent_for (mode_choice ui))
     (config (os_getenv w (lit "GEMINI_API_KEY")))).
Proof.
  intros H. unfold main. rewrite H, bind_ret.
  unfold st_radio, getitem.
  cbn [mbind Script_bind mret Script_ret emit trace outcome app].
  change (selected mode_options (style_index (mode_choice ui)))
    with (mode_of (mode_choice ui)).
  rewrite instructions_mode_of.
  reflexivity.
Qed.

(** ** Running the script symbolically *)

Ltac script_step :=
  cbn [mbind Script_bind mret Script_ret emit st_stop raise call run_agent
       trace outcome app andb].

(** Settle the tests [clicked ui = Some b] once [clicked ui] is known. *)
Ltac decide_buttons :=
  repeat match goal with
    | |- context [bool_decide ?P] =>
        first [ rewrite (bool_decide_eq_true_2 P) by congruence
              | rewrite (bool_decide_eq_false_2 P) by congruence ]
    end.

(** Split on what the collaborators answer. *)
Ltac case_calls :=
  repeat (script_step;
          match goal with
          | |- context [Runner_run ?w ?a ?p ?c] =>
              lazymatch goal with
              | H : Runner_run w a p c = _ |- _ => rewrite H
              | _ => let E := fresh "Hrun" in destruct (Runner_run w a p c) eqn:E
              end
          | |- context [PdfReader ?w ?f] =>
              let E := fresh "Hread" in destruct (PdfReader w f) eqn:E
          end);
  script_step.

Ltac open_script :=
  rewrite ?tools_section_eq;
  unfold question_section, pdf_branch, keyword_branch, apa_branch,
    concept_branch, st_text_input, st_text_area, st_file_uploader, st_button;
  cbn [with_mode with_runner mode_choice question tool_choice pdf content
       reference_text concept clicked environ PdfReader Runner_run].

(** Split on the selected tool, the pressed button and the guards. *)
Ltac split_ui ui :=
  let Ht := fresh "Htool" in
  let Hc := fresh "Hclick" in
  destruct (tool_choice ui) eqn:Ht; destruct (clicked ui) as [[]|] eqn:Hc;
  decide_buttons; script_step;
  repeat match goal with
    | |- context [truthy ?s] =>
        let E := fresh "Htruthy" in destruct (truthy s) eqn:E; script_step
    | |- context [match pdf ui with _ => _ end] =>
        let E := fresh "Hpdf" in destruct (pdf ui) eqn:E; script_step
    end.

Ltac run_main w ui :=
  rewrite (main_started w ui) by assumption; open_script; split_ui ui.

Ltac key_cases w :=
  let Hk := fresh "Hkey" in
  destruct (not_set (os_getenv w (lit "GEMINI_API_KEY"))) eqn:Hk;
  [ rewrite ?(main_stopped w) by assumption | ].

(** ** Text of a document *)

(** X13: pages without text add nothing, so the filter of the comprehension
    changes nothing: the text is the concatenation of all page texts, in page
    order. *)
Lemma joined_text_concat pages : joined_text pages = concat (map extract_text pages).
Proof.
  unfold joined_text. induction pages as [|pg pages IH]; [reflexivity|].
  rewrite filter_cons. destruct (extract_text pg) as [|ch txt] eqn:E.
  - destruct (decide _) as [ne|_]; [contradiction|]. simpl. rewrite E. exact IH.
  - destruct (decide _) as [_|e]; [|exfalso; apply e; discriminate].
    simpl. rewrite E, IH. reflexivity.
Qed.

Lemma pdf_text_length pages : (N.of_nat (length (pdf_text pages)) <= 8000)%N.
Proof. unfold pdf_text, slice_bound. rewrite length_take. lia. Qed.

(** ** Sample runs, evaluated *)

Example run_ask :
  main Sample.world Sample.ask =
  {| trace :=
       [ Widget Radio (emoji 0x1F9E0 " Response Style");
         Widget TextInput (emoji 0x1F4AC " What do you want to learn about?");
         Widget ButtonWidget (emoji 0x1F680 " Get Answer");
         RunnerRun (agent_for Technical) (lit "What is quantum entanglement?")
           (config (Some (lit "secret")));
         StSuccess (emoji 0x2705 " Response Ready");
         StMarkdown (lit "### " ++ emoji 0x1F4C4 " Result");
         StWrite (lit "An answer.");
         Widget Selectbox (lit "Choose a tool") ];
     outcome := Returned tt |}.
Proof. vm_compute. reflexivity. Qed.

Example run_summarize_short :
  prompts (trace (main Sample.world (Sample.summarize 2))) =
  [ lit "Summarize the following research paper:" ++ [LF; LF]
      ++ lit "Abstract. We show X." ].
Proof. vm_compute. reflexivity. Qed.

(** A rejected file: the parser's exception leaves the script before any
    prompt is built. *)
Example run_summarize_rejected :
  prompts (trace (main Sample.world (Sample.summarize 9))) = [] /\
  outcome (main Sample.world (Sample.summarize 9)) =
  Raised {| exc_type := lit "PdfReadError"; exc_msg := lit "EOF marker not found" |}.
Proof. vm_compute. split; reflexivity. Qed.

(** The question guard strips: a question of blanks is not sent. *)
Lemma blank_question_is_not_sent w ui :
  strip (question ui) = [] ->
  clicked ui = Some GetAnswer ->
  runner_calls (trace (main w ui)) = [].
Proof.
  intros Hs Hc. key_cases w; [reflexivity|].
  run_main w ui; try discriminate; try reflexivity.
  all: rewrite Hs in *; discriminate.
Qed.


(** * The claims *)

(** ** C1: empty payloads of the text tools *)

(** C1, as stated, fails on the code.  Keyword extraction pressed on a text
    area holding one space: the payload is blank, yet the agent is asked with
    the template around the space.  PDF summarization pressed on a scanned
    document: the extracted text is empty, yet the agent is asked with the
    bare template. *)
Lemma blank_payload_reaches_agent :
  (tool_choice Sample.keywords_space = KeywordExtraction /\
   clicked Sample.keywords_space = Some ExtractKeywords /\
   content Sample.keywords_space = lit " " /\
   strip (content Sample.keywords_space) = [] /\
   prompts (trace (main Sample.world Sample.keywords_space)) =
   [ lit "Extract the most relevant keywords from this content:"
       ++ [LF; LF] ++ lit " " ]) /\
  (tool_choice (Sample.summarize 0) = PdfSummarization /\
   clicked (Sample.summarize 0) = Some SummarizePdf /\
   PdfReader Sample.world (Sample.file 0) = inr Sample.scanned /\
   pdf_text Sample.scanned = [] /\
   prompts (trace (main Sample.world (Sample.summarize 0))) =
   [ lit "Summarize the following research paper:" ++ [LF; LF] ]).
Proof. vm_compute. repeat split. Qed.

(** C1 (amended): for keyword extraction, APA reference generation and
    concept explanation, when the payload is the empty string the tool's
    section never asks the agent, and a run in which the research question
    was not the button pressed makes no call to the agent at all. *)
Theorem empty_payload_suppresses_tool w ui :
  (tool_choice ui = KeywordExtraction /\ content ui = []) \/
  (tool_choice ui = ApaReferenceGeneration /\ reference_text ui = []) \/
  (tool_choice ui = ConceptExplanation /\ concept ui = []) ->
  clicked ui <> Some GetAnswer ->
  (forall a c, runner_calls (trace (tools_section w ui a c)) = []) /\
  runner_calls (trace (main w ui)) = [].
Proof.
  intros H Hq. split.
  - intros a c. rewrite tools_section_eq.
    unfold keyword_branch, apa_branch, concept_branch, st_text_input,
      st_text_area, st_button.
    destruct H as [[-> ->]|[[-> ->]|[-> ->]]];
      destruct (bool_decide _); reflexivity.
  - key_cases w; [reflexivity|].
    run_main w ui; try congruence.
    all: destruct H as [[? E]|[[? E]|[? E]]]; try congruence.
    all: try rewrite E in *; try discriminate; reflexivity.
Qed.

Lemma empty_payload_suppresses_tool_witness :
  content Sample.keywords_empty = [] /\
  clicked Sample.keywords_empty = Some ExtractKeywords /\
  runner_calls (trace (main Sample.world Sample.keywords_empty)) = [].
Proof.
  split; [reflexivity|]. split; [reflexivity|].
  apply (empty_payload_suppresses_tool Sample.world Sample.keywords_empty).
  - left. split; reflexivity.
  - discriminate.
Defined.

(** ** C2: a document without extractable text *)

(** C2 at its failing input: a scanned document of two pages without text
    is uploaded and Summarize is pressed.  The extracted text is empty, and
    the script still asks the agent, once, with the bare template, and shows
    the answer. *)
Theorem empty_document_is_still_summarized :
  PdfReader Sample.world (Sample.file 0) = inr Sample.scanned /\
  joined_text Sample.scanned = [] /\
  runner_calls (trace (main Sample.world (Sample.summarize 0))) =
  [ (agent_for Simple,
     lit "Summarize the following research paper:" ++ [LF; LF],
     config (Some (lit "secret"))) ] /\
  main Sample.world (Sample.summarize 0) =
  {| trace :=
       [ Widget Radio (emoji 0x1F9E0 " Response Style");
         Widget TextInput (emoji 0x1F4AC " What do you want to learn about?");
         Widget ButtonWidget (emoji 0x1F680 " Get Answer");
         Widget Selectbox (lit "Choose a tool");
         Widget FileUploader (lit "Upload a PDF");
         Widget ButtonWidget (emoji 0x1F4D8 " Summarize PDF");
         RunnerRun (agent_for Simple)
           (lit "Summarize the following research paper:" ++ [LF; LF])
           (config (Some (lit "secret")));
         StSuccess (emoji 0x2705 " Summary:");
         StWrite (lit "An answer.") ];
     outcome := Returned tt |}.
Proof. vm_compute. repeat split. Qed.

(** ** C3: the slice of the document text *)

(** C3: when a PDF is summarized, the one prompt sent is the template
    applied to the first 8000 characters of the extracted text: a text
    longer than 8000 characters gives a payload of exactly 8000 characters
    that is a prefix of it, and a text of at most 8000 characters is the
    payload in full. *)
Theorem pdf_payload_is_first_8000 w ui file pages :
  not_set (os_getenv w (lit "GEMINI_API_KEY")) = false ->
  tool_choice ui = PdfSummarization ->
  pdf ui = Some file ->
  clicked ui = Some SummarizePdf ->
  PdfReader w file = inr pages ->
  exists payload,
    prompts (trace (main w ui)) = [prompt_pdf payload] /\
    payload = take (N.to_nat 8000) (joined_text pages) /\
    ((8000 < N.of_nat (length (joined_text pages)))%N ->
       N.of_nat (length payload) = 8000%N /\
       exists rest, joined_text pages = payload ++ rest) /\
    ((N.of_nat (length (joined_text pages)) <= 8000)%N ->
       payload = joined_text pages).
Proof.
  intros Hk Ht Hp Hc Hr. exists (pdf_text pages).
  split; [|split; [reflexivity|split]].
  - rewrite main_started by assumption. rewrite tools_section_eq, Ht.
    unfold question_section, pdf_branch, st_text_input, st_file_uploader,
      st_button.
    rewrite Hc, Hp. decide_buttons. script_step. rewrite Hr. script_step.
    destruct (Runner_run _ _ _ _); reflexivity.
  - intros Hlen. unfold pdf_text, slice_bound. split.
    + rewrite length_take. lia.
    + exists (drop (N.to_nat 8000) (joined_text pages)).
      symmetry. apply take_drop.
  - intros Hlen. unfold pdf_text, slice_bound. apply take_ge. lia.
Qed.

Lemma pdf_payload_is_first_8000_witness :
  N.of_nat (length (joined_text Sample.long_paper)) = 8001%N /\
  exists payload,
    prompts (trace (main Sample.world (Sample.summarize 1))) =
    [prompt_pdf payload] /\
    N.of_nat (length payload) = 8000%N /\
    exists rest, joined_text Sample.long_paper = payload ++ rest.
Proof.
  split; [vm_compute; reflexivity|].
  destruct (pdf_payload_is_first_8000 Sample.world (Sample.summarize 1)
              (Sample.file 1) Sample.long_paper)
    as (payload & Hsent & _ & Hlong & _); try reflexivity.
  exists payload. split; [exact Hsent|].
  apply Hlong. vm_compute. reflexivity.
Defined.

(** ** C4: the research question *)

(** C4, as stated, fails on the code.  With no tool selected and Get Answer
    pressed on a question made of a space, a tab and a line feed, the guard
    of line 62 strips the question to nothing: the raw input is not passed
    to the agent, which is not asked at all. *)
Lemma blank_question_is_dropped :
  tool_choice Sample.ask_blank = ToolNone /\
  clicked Sample.ask_blank = Some GetAnswer /\
  not_set (os_getenv Sample.world (lit "GEMINI_API_KEY")) = false /\
  question Sample.ask_blank = [32%N; 9%N; 10%N] /\
  prompts (trace (main Sample.world Sample.ask_blank)) = [] /\
  prompts (trace (main Sample.world Sample.ask_blank)) <>
  [question Sample.ask_blank].
Proof. vm_compute. repeat split. discriminate. Qed.



(** ** C5: the summarization template *)

(** C5: the prompt built for summarizing payload [X] is a fixed lead-in
    followed by [X]: the lead-in is its first 41 characters whatever [X] is,
    and [X] is everything after them. *)
Theorem pdf_prompt_shape (X : str) :
  let lead_in := lit "Summarize the following research paper:" ++ [LF; LF] in
  lead_in <> [] /\
  prompt_pdf X = lead_in ++ X /\
  take (length lead_in) (prompt_pdf X) = lead_in /\
  drop (length lead_in) (prompt_pdf X) = X.
Proof.
  intros lead_in.
  assert (E : prompt_pdf X = lead_in ++ X).
  { unfold prompt_pdf, lead_in. rewrite <- app_assoc. reflexivity. }
  rewrite E. split; [discriminate|]. split; [reflexivity|]. split.
  - apply take_app_length.
  - apply drop_app_length.
Qed.

Example pdf_prompt_of_X :
  prompt_pdf (lit "X") =
  lit "Summarize the following research paper:" ++ [LF; LF; 88%N].
Proof. reflexivity. Qed.

(** ** C6: the instruction of a style *)

(** C6: for each of the three styles the dict holds an instruction under
    the entry the radio returns, so the lookup never raises; the instruction
    is not empty; two styles have the same instruction only when they are
    the same style; and the dict has no key besides the three entries. *)
Theorem instructions_total_distinct :
  (forall s, exists text,
     instructions !! mode_of s = Some text /\ text <> [] /\
     getitem instructions (mode_of s) = mret text) /\
  (forall s1 s2,
     instructions !! mode_of s1 = instructions !! mode_of s2 -> s1 = s2) /\
  dom instructions = list_to_set mode_options.
Proof.
  split; [|split].
  - intros s. exists (instruction_of s).
    unfold getitem. rewrite instructions_mode_of.
    split; [reflexivity|]. split; [|reflexivity].
    destruct s; vm_compute; discriminate.
  - intros s1 s2. rewrite !instructions_mode_of.
    destruct s1, s2; vm_compute; intros E; try reflexivity; discriminate E.
  - unfold instructions, mode_options.
    rewrite !dom_insert_L, dom_singleton_L. cbn [list_to_set foldr].
    set_solver.
Qed.

Example instruction_of_technical :
  instruction_of Technical =
  lit "Provide a detailed and technical explanation with examples, references, or formulas if needed.".
Proof. vm_compute. reflexivity. Qed.

(** ** C7: the credential guard *)

(** C7: when GEMINI_API_KEY is unset or empty, every run consists of the
    error message followed by the stop: no widget is put on the page and the
    agent is never asked, whatever the widgets would hold. *)
Theorem missing_credential_halts w ui :
  os_getenv w (lit "GEMINI_API_KEY") = None \/
  os_getenv w (lit "GEMINI_API_KEY") = Some [] ->
  main w ui =
    {| trace := [StError (emoji 0x1F510 " Please set GEMINI_API_KEY in your .env file.")];
       outcome := Stopped |} /\
  widgets (trace (main w ui)) = [] /\
  runner_calls (trace (main w ui)) = [].
Proof.
  intros H.
  assert (Hk : not_set (os_getenv w (lit "GEMINI_API_KEY")) = true)
    by (destruct H as [-> | ->]; reflexivity).
  rewrite main_stopped by assumption. repeat split.
Qed.

Lemma missing_credential_halts_witness :
  os_getenv Sample.world_no_key (lit "GEMINI_API_KEY") = None /\
  outcome (main Sample.world_no_key Sample.ask) = Stopped /\
  widgets (trace (main Sample.world_no_key Sample.ask)) = [] /\
  runner_calls (trace (main Sample.world_no_key Sample.ask)) = [].
Proof.
  split; [reflexivity|].
  destruct (missing_credential_halts Sample.world_no_key Sample.ask)
    as (Hrun & Hw & Hc); [left; reflexivity|].
  rewrite Hrun. repeat split.
Defined.

Example empty_credential_halts :
  outcome (main Sample.world_empty_key Sample.ask) = Stopped /\
  runner_calls (trace (main Sample.world_empty_key Sample.ask)) = [].
Proof. vm_compute. split; reflexivity. Qed.

(** ** C8: errors of the completion endpoint *)

(** C8: when a call to the agent made in a run raises [e], the run ends
    with [e] itself raised; the failed call is the last effect of the run
    (nothing is shown after it) and the only call of the run (it is not
    tried again). *)
Theorem upstream_error_propagates w ui a p c e :
  In (RunnerRun a p c) (trace (main w ui)) ->
  Runner_run w a p c = inl e ->
  outcome (main w ui) = Raised e /\
  exists pre,
    trace (main w ui) = pre ++ [RunnerRun a p c] /\ runner_calls pre = [].
Proof.
  key_cases w.
  - simpl. intros [|[]]; discriminate.
  - run_main w ui; case_calls.
    all: intros Hin Hr; cbn [In] in Hin.
    all: repeat (destruct Hin as [Hin|Hin]; [try discriminate Hin|]);
      try contradiction.
    all: try (injection Hin as <- <- <-; congruence).
    all: injection Hin as <- <- <-.
    all: split; [congruence|].
    all: match goal with
         | |- exists pre, ?l = pre ++ [_] /\ _ => exists (removelast l)
         end.
    all: split; reflexivity.
Qed.

Lemma upstream_error_propagates_witness :
  outcome (main Sample.world_down Sample.ask) = Raised Sample.upstream_error /\
  exists pre,
    trace (main Sample.world_down Sample.ask) =
    pre ++ [RunnerRun (agent_for Technical) (question Sample.ask)
              (config (Some (lit "secret")))] /\
    runner_calls pre = [].
Proof.
  apply (upstream_error_propagates Sample.world_down Sample.ask
           (agent_for Technical) (question Sample.ask)
           (config (Some (lit "secret"))) Sample.upstream_error).
  - vm_compute. do 3 right. left. reflexivity.
  - reflexivity.
Defined.

(** ** C9: the agent of a run *)



(** ** C10: the style and the prompt *)

(** C10: two runs on the same environment, PDF reader and widget values,
    which differ in the selected style (and possibly in what the completion
    endpoint answers), hand the same prompts to the agent. *)
Theorem style_leaves_prompt_alone w ui s1 s2 r :
  prompts (trace (main w (with_mode s1 ui))) =
  prompts (trace (main (with_runner r w) (with_mode s2 ui))).
Proof.
  destruct (not_set (os_getenv w (lit "GEMINI_API_KEY"))) eqn:Hkey.
  - rewrite !main_stopped by exact Hkey. reflexivity.
  - rewrite (main_started (with_runner r w)) by exact Hkey.
    rewrite (main_started w) by exact Hkey.
    open_script. split_ui ui; case_calls; reflexivity.
Qed.

Example style_changes_agent_only :
  prompts (trace (main Sample.world (with_mode Simple Sample.ask))) =
  prompts (trace (main Sample.world (with_mode Technical Sample.ask))) /\
  map (fun call => Agent_instructions (fst (fst call)))
    (runner_calls (trace (main Sample.world (with_mode Simple Sample.ask)))) <>
  map (fun call => Agent_instructions (fst (fst call)))
    (runner_calls (trace (main Sample.world (with_mode Technical Sample.ask)))).
Proof. vm_compute. split; [reflexivity|discriminate]. Qed.

(** * Further properties of the script *)

(** ** Guards *)

Lemma truthy_true s : truthy s = true -> s <> [].
Proof. destruct s; [discriminate|]. intros _. discriminate. Qed.

Lemma truthy_false s : truthy s = false -> s = [].
Proof. destruct s; [reflexivity|discriminate]. Qed.

Lemma lstrip_nil s :
  lstrip s = [] <-> List.Forall (fun ch => isspace ch = true) s.
Proof.
  induction s as [|ch s IH]; simpl.
  - split; [constructor|reflexivity].
  - destruct (isspace ch) eqn:E.
    + rewrite IH. split; [intros H; constructor; assumption|].
      intros H. inversion H; assumption.
    + split; [discriminate|]. intros H. inversion H; congruence.
Qed.

Lemma lstrip_head s ch t : lstrip s = ch :: t -> isspace ch = false.
Proof.
  induction s as [|x s IH]; simpl; [discriminate|].
  destruct (isspace x) eqn:E; [exact IH|]. intros [= -> _]. exact E.
Qed.

(** A string strips to nothing exactly when all its characters are blanks. *)
Lemma strip_nil s :
  strip s = [] <-> List.Forall (fun ch => isspace ch = true) s.
Proof.
  unfold strip. split.
  - intros H. apply (f_equal (@rev N)) in H. rewrite rev_involutive in H.
    simpl in H. apply lstrip_nil in H.
    destruct (lstrip s) as [|ch t] eqn:E.
    + apply lstrip_nil. exact E.
    + apply lstrip_head in E. rewrite List.Forall_forall in H.
      specialize (H ch). rewrite <- in_rev in H.
      rewrite H in E; [discriminate|left; reflexivity].
  - intros H. apply lstrip_nil in H. rewrite H. reflexivity.
Qed.

Lemma prompt_pdf_length text :
  N.of_nat (length (prompt_pdf text)) = (41 + N.of_nat (length text))%N.
Proof.
  unfold prompt_pdf. rewrite !length_app.
  change (length (lit "Summarize the following research paper:")) with 39.
  cbn [length]. lia.
Qed.

(** Membership in a trace that has been computed. *)
Ltac in_list :=
  cbn [In]; repeat (first [left; reflexivity | left; congruence | right]).


(** ** Calls to the agent *)

(** X2: Get Answer pressed on a question that is not blank asks the agent
    once, with the question as typed (blanks around it included), the agent
    of the selected style and the run configuration, whichever tool is
    selected and whatever its fields hold. *)
Theorem get_answer_ignores_tool w ui :
  not_set (os_getenv w (lit "GEMINI_API_KEY")) = false ->
  clicked ui = Some GetAnswer ->
  strip (question ui) <> [] ->
  runner_calls (trace (main w ui)) =
  [ (agent_for (mode_choice ui), question ui,
     config (os_getenv w (lit "GEMINI_API_KEY"))) ].
Proof.
  intros Hk Hc Hs.
  run_main w ui; try discriminate; case_calls; try reflexivity.
  all: apply truthy_false in Htruthy; contradiction.
Qed.

Lemma get_answer_ignores_tool_witness :
  tool_choice Sample.ask_beside_tool = KeywordExtraction /\
  runner_calls (trace (main Sample.world Sample.ask_beside_tool)) =
  [ (agent_for ExplainLikeImFive, lit " Why is the sky blue? ",
     config (Some (lit "secret"))) ].
Proof.
  split; [reflexivity|].
  apply (get_answer_ignores_tool Sample.world Sample.ask_beside_tool).
  - reflexivity.
  - reflexivity.
  - vm_compute. discriminate.
Defined.

(** X3: when Get Answer is pressed, the agent is left alone exactly when
    every character of the question is a blank (the empty question
    included). *)
Theorem get_answer_needs_nonblank w ui :
  not_set (os_getenv w (lit "GEMINI_API_KEY")) = false ->
  clicked ui = Some GetAnswer ->
  (runner_calls (trace (main w ui)) = [] <->
   List.Forall (fun ch => isspace ch = true) (question ui)).
Proof.
  intros Hk Hc. rewrite <- strip_nil.
  run_main w ui; try discriminate; case_calls.
  all: try (apply truthy_true in Htruthy; split; [discriminate|contradiction]).
  all: apply truthy_false in Htruthy; split; [intros _; assumption|reflexivity].
Qed.

Lemma get_answer_needs_nonblank_witness :
  question Sample.ask_blank = [32%N; 9%N; 10%N] /\
  runner_calls (trace (main Sample.world Sample.ask_blank)) = [].
Proof.
  split; [reflexivity|].
  apply (get_answer_needs_nonblank Sample.world Sample.ask_blank).
  - reflexivity.
  - reflexivity.
  - repeat constructor.
Defined.

(** X14: every call to the agent has its cause in the pressed button: the
    question as typed for Get Answer, and for a tool's button the tool's
    template around its payload, with that tool selected and its guard
    passed (a parsed upload for the PDF, a non-empty field for the
    others). *)
Theorem every_call_has_a_cause w ui a p c :
  In (a, p, c) (runner_calls (trace (main w ui))) ->
  (clicked ui = Some GetAnswer /\ strip (question ui) <> [] /\
   p = question ui) \/
  (clicked ui = Some SummarizePdf /\ tool_choice ui = PdfSummarization /\
   exists file pages,
     pdf ui = Some file /\ PdfReader w file = inr pages /\
     p = prompt_pdf (pdf_text pages)) \/
  (clicked ui = Some ExtractKeywords /\ tool_choice ui = KeywordExtraction /\
   content ui <> [] /\ p = prompt_keywords (content ui)) \/
  (clicked ui = Some GenerateApaReference /\
   tool_choice ui = ApaReferenceGeneration /\
   reference_text ui <> [] /\ p = prompt_apa (reference_text ui)) \/
  (clicked ui = Some ExplainConcept /\ tool_choice ui = ConceptExplanation /\
   concept ui <> [] /\ p = prompt_concept (concept ui)).
Proof.
  key_cases w; [intros []|].
  run_main w ui; case_calls.
  all: cbn; intros Hin; repeat (destruct Hin as [Hin|Hin]);
    try contradiction.
  all: injection Hin as <- <- <-.
  all: repeat match goal with
         | H : truthy _ = true |- _ => apply truthy_true in H
         end.
  all: first
         [ left; repeat split; solve [reflexivity | assumption]
         | right; left; split; [reflexivity|]; split; [reflexivity|];
           do 2 eexists; repeat split; solve [reflexivity | eassumption]
         | do 2 right; left; repeat split; solve [reflexivity | assumption]
         | do 3 right; left; repeat split; solve [reflexivity | assumption]
         | do 4 right; repeat split; solve [reflexivity | assumption] ].
Qed.

Lemma every_call_has_a_cause_witness :
  runner_calls (trace (main Sample.world (Sample.summarize 2))) =
  [ (agent_for Simple, prompt_pdf (lit "Abstract. We show X."),
     config (Some (lit "secret"))) ] /\
  exists file pages,
    pdf (Sample.summarize 2) = Some file /\
    PdfReader Sample.world file = inr pages /\
    prompt_pdf (lit "Abstract. We show X.") = prompt_pdf (pdf_text pages).
Proof.
  split; [vm_compute; reflexivity|].
  destruct (every_call_has_a_cause Sample.world (Sample.summarize 2)
              (agent_for Simple) (prompt_pdf (lit "Abstract. We show X."))
              (config (Some (lit "secret"))))
    as [(H & _)|[(_ & _ & H)|[(H & _)|[(H & _)|(H & _)]]]];
    try discriminate H.
  - vm_compute. left. reflexivity.
  - exact H.
Defined.

(** X15: a run in which no button was pressed (the page was opened, a field
    edited, another style or tool chosen) never asks the agent and shows no
    answer; with a credential it runs to its end. *)
Theorem idle_run_makes_no_call w ui :
  clicked ui = None ->
  runner_calls (trace (main w ui)) = [] /\
  (forall body, ~ In (StWrite body) (trace (main w ui))) /\
  (not_set (os_getenv w (lit "GEMINI_API_KEY")) = false ->
   outcome (main w ui) = Returned tt).
Proof.
  intros Hc. key_cases w.
  - split; [reflexivity|]. split; [|discriminate].
    intros body [H|[]]; discriminate H.
  - run_main w ui; try discriminate.
    all: split; [reflexivity|]; split; [|reflexivity].
    all: intros body Hin; cbn [In] in Hin.
    all: repeat (destruct Hin as [Hin|Hin]; [discriminate Hin|]);
      contradiction.
Qed.

Lemma idle_run_makes_no_call_witness :
  runner_calls (trace (main Sample.world Sample.idle)) = [] /\
  outcome (main Sample.world Sample.idle) = Returned tt.
Proof.
  destruct (idle_run_makes_no_call Sample.world Sample.idle)
    as (Hcalls & _ & Hend); [reflexivity|].
  split; [exact Hcalls|]. apply Hend. reflexivity.
Defined.

(** ** What the page shows *)

(** X6: the tools section always puts the select box on the page and then
    the widgets of the selected tool only; the Summarize button is on the
    page only once a file is uploaded.  Neither the pressed button, nor the
    fields, nor the collaborators' answers change that. *)
Theorem tools_widgets w ui a c :
  widgets (trace (tools_section w ui a c)) =
  (Selectbox, lit "Choose a tool") ::
  match tool_choice ui with
  | ToolNone => []
  | PdfSummarization =>
      (FileUploader, lit "Upload a PDF") ::
      match pdf ui with
      | Some _ => [(ButtonWidget, button_label SummarizePdf)]
      | None => []
      end
  | KeywordExtraction =>
      [ (TextArea, lit "Paste content for keyword extraction");
        (ButtonWidget, button_label ExtractKeywords) ]
  | ApaReferenceGeneration =>
      [ (TextArea, lit "Paste a paragraph or citation text");
        (ButtonWidget, button_label GenerateApaReference) ]
  | ConceptExplanation =>
      [ (TextInput, lit "Enter concept to explain");
        (ButtonWidget, button_label ExplainConcept) ]
  end.
Proof.
  open_script.
  destruct (tool_choice ui); script_step;
    repeat match goal with
      | |- context [bool_decide ?P] => destruct (bool_decide P)
      | |- context [truthy ?s] => destruct (truthy s)
      | |- context [match pdf ui with _ => _ end] => destruct (pdf ui)
      end; case_calls; reflexivity.
Qed.

(** X7: when the call to the agent returns, the run goes on to its end and
    writes the returned [final_output] to the page, unchanged, and writes no
    other text. *)
Theorem answer_is_shown w ui a p c r :
  In (RunnerRun a p c) (trace (main w ui)) ->
  Runner_run w a p c = inr r ->
  outcome (main w ui) = Returned tt /\
  In (StWrite (final_output r)) (trace (main w ui)) /\
  forall body, In (StWrite body) (trace (main w ui)) -> body = final_output r.
Proof.
  key_cases w.
  - simpl. intros [|[]]; discriminate.
  - run_main w ui; case_calls.
    all: intros Hin Hr; cbn [In] in Hin.
    all: repeat (destruct Hin as [Hin|Hin]; [try discriminate Hin|]);
      try contradiction.
    all: try (injection Hin as <- <- <-; congruence).
    all: injection Hin as <- <- <-.
    all: split; [reflexivity|]; split; [in_list|].
    all: intros body Hb; cbn [In] in Hb.
    all: repeat (destruct Hb as [Hb|Hb]; [try discriminate Hb|]);
      try contradiction.
    all: congruence.
Qed.

Lemma answer_is_shown_witness :
  outcome (main Sample.world Sample.keywords_space) = Returned tt /\
  In (StWrite (lit "An answer."))
    (trace (main Sample.world Sample.keywords_space)) /\
  forall body,
    In (StWrite body) (trace (main Sample.world Sample.keywords_space)) ->
    body = lit "An answer.".
Proof.
  apply (answer_is_shown Sample.world Sample.keywords_space
           (agent_for Simple) (prompt_keywords (lit " "))
           (config (Some (lit "secret"))) Sample.answer).
  - vm_compute. do 6 right. left. reflexivity.
  - reflexivity.
Defined.

(** X8: every text written to the page is the [final_output] of a call to
    the agent made, and returned, in the same run. *)
Theorem shown_text_is_an_answer w ui body :
  In (StWrite body) (trace (main w ui)) ->
  exists a p c r,
    In (RunnerRun a p c) (trace (main w ui)) /\
    Runner_run w a p c = inr r /\ body = final_output r.
Proof.
  key_cases w.
  - simpl. intros [|[]]; discriminate.
  - run_main w ui; case_calls.
    all: intros Hb; cbn [In] in Hb.
    all: repeat (destruct Hb as [Hb|Hb]; [try discriminate Hb|]);
      try contradiction.
    all: injection Hb as <-.
    all: do 4 eexists; split; [|split; [eassumption|reflexivity]].
    all: in_list.
Qed.

Lemma shown_text_is_an_answer_witness :
  exists a p c r,
    In (RunnerRun a p c) (trace (main Sample.world Sample.ask)) /\
    Runner_run Sample.world a p c = inr r /\
    lit "An answer." = final_output r.
Proof.
  apply (shown_text_is_an_answer Sample.world Sample.ask (lit "An answer.")).
  vm_compute. do 6 right. left. reflexivity.
Defined.

(** X11: a run stops early exactly when GEMINI_API_KEY is unset or empty,
    and the error message is on the page in exactly those runs. *)
Theorem stops_only_without_credential w ui :
  (outcome (main w ui) = Stopped <->
   os_getenv w (lit "GEMINI_API_KEY") = None \/
   os_getenv w (lit "GEMINI_API_KEY") = Some []) /\
  ((exists msg, In (StError msg) (trace (main w ui))) <->
   os_getenv w (lit "GEMINI_API_KEY") = None \/
   os_getenv w (lit "GEMINI_API_KEY") = Some []).
Proof.
  assert (Hn : not_set (os_getenv w (lit "GEMINI_API_KEY")) = true <->
               os_getenv w (lit "GEMINI_API_KEY") = None \/
               os_getenv w (lit "GEMINI_API_KEY") = Some []).
  { destruct (os_getenv w (lit "GEMINI_API_KEY")) as [[|ch key]|]; simpl;
      (split; [intros H; try discriminate H; auto
              |intros [H|H]; try discriminate H; reflexivity]). }
  rewrite <- Hn. key_cases w.
  - split; (split; [reflexivity|intros _]); [reflexivity|].
    eexists. left. reflexivity.
  - split; (split; [|discriminate]).
    + run_main w ui; case_calls; discriminate.
    + intros [msg Hin]. revert Hin.
      run_main w ui; case_calls.
      all: cbn [In]; intros Hin.
      all: repeat (destruct Hin as [Hin|Hin]; [discriminate Hin|]);
        contradiction.
Qed.

(** ** What the agent receives *)

(** X9: every call to the agent carries the run configuration built from
    the environment: the credential of GEMINI_API_KEY, which is not empty,
    in both the model's client and the provider, the Gemini base URL, the
    model gemini-2.0-flash, and tracing disabled. *)
Theorem call_carries_credential w ui a p c :
  In (a, p, c) (runner_calls (trace (main w ui))) ->
  c = config (os_getenv w (lit "GEMINI_API_KEY")) /\
  exists key,
    os_getenv w (lit "GEMINI_API_KEY") = Some key /\ key <> [] /\
    api_key (model_provider c) = Some key /\
    api_key (openai_client (RunConfig_model c)) = Some key /\
    base_url (model_provider c) =
      lit "https://generativelanguage.googleapis.com/v1beta/openai/" /\
    Model_model (RunConfig_model c) = lit "gemini-2.0-flash" /\
    tracing_disabled c = true.
Proof.
  key_cases w; [intros []|].
  intros Hin.
  assert (E : c = config (os_getenv w (lit "GEMINI_API_KEY"))).
  { revert Hin. run_main w ui; case_calls.
    all: cbn; intros Hin; repeat (destruct Hin as [Hin|Hin]);
      try contradiction.
    all: injection Hin as <- <- <-; reflexivity. }
  split; [exact E|]. subst c.
  destruct (os_getenv w (lit "GEMINI_API_KEY")) as [[|ch key]|];
    try discriminate.
  exists (ch :: key). repeat split. discriminate.
Qed.

Lemma call_carries_credential_witness :
  exists key,
    os_getenv Sample.world (lit "GEMINI_API_KEY") = Some key /\ key <> [] /\
    api_key (model_provider (config (Some (lit "secret")))) = Some key.
Proof.
  destruct (call_carries_credential Sample.world Sample.ask
              (agent_for Technical) (question Sample.ask)
              (config (Some (lit "secret"))))
    as (_ & key & Henv & Hne & Hkey & _).
  - vm_compute. left. reflexivity.
  - exists key. split; [exact Henv|]. split; [exact Hne|exact Hkey].
Defined.

(** X12: a prompt sent by Summarize is never longer than 8041 characters,
    the 41 of the template and at most 8000 of the document. *)
Theorem pdf_prompt_is_bounded w ui p :
  clicked ui = Some SummarizePdf ->
  In p (prompts (trace (main w ui))) ->
  (N.of_nat (length p) <= 8041)%N.
Proof.
  intros Hc. key_cases w; [intros []|].
  run_main w ui; try discriminate; case_calls.
  all: try match goal with
         | |- context [prompt_pdf (pdf_text ?pages)] =>
             pose proof (pdf_text_length pages) as Hlen;
             pose proof (prompt_pdf_length (pdf_text pages)) as Hp;
             remember (prompt_pdf (pdf_text pages)) as q
         end.
  all: cbn; intros Hin; repeat (destruct Hin as [Hin|Hin]);
    try contradiction.
  all: subst p; lia.
Qed.

Lemma pdf_prompt_is_bounded_witness :
  N.of_nat (length (joined_text Sample.long_paper)) = 8001%N /\
  (N.of_nat (length (prompt_pdf (pdf_text Sample.long_paper))) <= 8041)%N.
Proof.
  split; [vm_compute; reflexivity|].
  apply (pdf_prompt_is_bounded Sample.world (Sample.summarize 1)).
  - reflexivity.
  - vm_compute. left. reflexivity.
Defined.

(** ** Exceptions *)



(** X10: an exception leaves a run only if a collaborator raised it: it is
    the exception of the call to the agent made in the run, or that of the
    parser on the uploaded file, before any call.  The lookup in the
    instructions dict never raises. *)
Theorem raised_comes_from_collaborator w ui e :
  outcome (main w ui) = Raised e ->
  (exists a p c,
     In (RunnerRun a p c) (trace (main w ui)) /\ Runner_run w a p c = inl e) \/
  (exists file,
     pdf ui = Some file /\ PdfReader w file = inl e /\
     runner_calls (trace (main w ui)) = []).
Proof.
  key_cases w; [discriminate|].
  run_main w ui; case_calls; try discriminate.
  all: intros [= <-].
  all: first [ left; do 3 eexists; split; [in_list|eassumption]
             | right; eexists; split;
               [reflexivity|split; [eassumption|reflexivity]] ].
Qed.

Lemma raised_comes_from_collaborator_witness :
  outcome (main Sample.world_down Sample.keywords_space) =
  Raised Sample.upstream_error /\
  ((exists a p c,
      In (RunnerRun a p c) (trace (main Sample.world_down Sample.keywords_space)) /\
      Runner_run Sample.world_down a p c = inl Sample.upstream_error) \/
   (exists file,
      pdf Sample.keywords_space = Some file /\
      PdfReader Sample.world_down file = inl Sample.upstream_error /\
      runner_calls (trace (main Sample.world_down Sample.keywords_space)) = [])).
Proof.
  split; [vm_compute; reflexivity|].
  apply (raised_comes_from_collaborator Sample.world_down
           Sample.keywords_space Sample.upstream_error).
  vm_compute. reflexivity.
Defined.
